(** * mcp_cmake/server.py: the session gate of the MCP-CMake server

    A shallow embedding of [src/mcp_cmake/server.py].  The module keeps two
    globals ([WORKING_DIRECTORY], [IS_HEALTHY]); [health_check] refreshes
    them from the result of [core.health_check], and the decorator
    [tool_guard] refuses the four other tools while the flag is falsy.

    Python values are embedded as a small universe [pyval] with Python's
    truthiness; dicts keep their insertion order.  The functions of
    [mcp_cmake.core] are not part of the sources that are verified here: the
    server is parametrised by them (record [Core]), and every call to one of
    them is recorded in the machine's call log. *)

From Stdlib Require Import String List ZArith Bool Lia.
Import ListNotations.
Open Scope string_scope.
Open Scope list_scope.

(** ** Python values *)

#[warnings="-register-all"]
Inductive pyval : Type :=
| PyNone
| PyBool (b : bool)
| PyInt (z : Z)
| PyStr (s : string)
| PyList (items : list pyval)
| PyDict (entries : list (string * pyval))
| PyObj (handle : nat).

(** A dict with string keys, in insertion order. *)
Definition pydict : Type := list (string * pyval).

(** [bool(v)]: what [if v:] and [not v] test. *)
Definition truthy (v : pyval) : bool :=
  match v with
  | PyNone => false
  | PyBool b => b
  | PyInt z => negb (z =? 0)%Z
  | PyStr s => negb (s =? "")
  | PyList items => match items with [] => false | _ :: _ => true end
  | PyDict entries => match entries with [] => false | _ :: _ => true end
  | PyObj _ => true
  end.

(** [isinstance(v, bool)] *)
Definition is_bool (v : pyval) : bool :=
  match v with PyBool _ => true | _ => false end.

Fixpoint dict_lookup (d : pydict) (k : string) : option pyval :=
  match d with
  | [] => None
  | (k', v) :: d' => if k' =? k then Some v else dict_lookup d' k
  end.

(** [k in d] *)
Definition dict_mem (d : pydict) (k : string) : bool :=
  match dict_lookup d k with Some _ => true | None => false end.

(** [d.get(k, default)] *)
Definition dict_get (d : pydict) (k : string) (default : pyval) : pyval :=
  match dict_lookup d k with Some v => v | None => default end.

(** The result of a health check holds a bool under is_healthy when it
    holds anything there: the type the tool's contract, [update_state]'s
    parameter and the declaration of IS_HEALTHY give the flag. *)
Definition health_flag_typed (result : pydict) : bool :=
  match dict_lookup result "is_healthy" with
  | Some v => is_bool v
  | None => true
  end.

(** [d[k] = v]: an existing key keeps its position, a new key goes last. *)
Fixpoint dict_set (d : pydict) (k : string) (v : pyval) : pydict :=
  match d with
  | [] => [(k, v)]
  | (k', v') :: d' =>
      if k' =? k then (k', v) :: d' else (k', v') :: dict_set d' k v
  end.

(** ** Calling a Python function

    A [def f(p1, p2, p3=d3)] is called with positional arguments and keyword
    arguments.  Binding fails with [TypeError] when there are too many
    positional arguments, when a parameter gets a value twice, when a
    parameter without default gets none, or when a keyword names no
    parameter. *)

Definition params : Type := list (string * option pyval).

Fixpoint bind_params (ps : params) (args : list pyval) (kwargs : pydict)
  : option (list pyval) :=
  match ps, args with
  | [], [] => Some []
  | [], _ :: _ => None
  | (name, _) :: ps', a :: args' =>
      if dict_mem kwargs name then None
      else option_map (cons a) (bind_params ps' args' kwargs)
  | (name, default) :: ps', [] =>
      match dict_lookup kwargs name, default with
      | Some v, _ => option_map (cons v) (bind_params ps' [] kwargs)
      | None, Some v => option_map (cons v) (bind_params ps' [] kwargs)
      | None, None => None
      end
  end.

Definition is_param (ps : params) (k : string) : bool :=
  existsb (fun p => fst p =? k) ps.

Definition bind_call (ps : params) (args : list pyval) (kwargs : pydict)
  : option (list pyval) :=
  if forallb (fun kv => is_param ps (fst kv)) kwargs
  then bind_params ps args kwargs
  else None.

(** ** The machine: globals, the outside world, and what was observed *)

Inductive CoreCall : Type :=
| Call_health_check (working_dir : pyval)
| Call_list_presets (working_dir : pyval)
| Call_create_project (working_dir preset cmake_defines : pyval)
| Call_build_project (working_dir preset targets verbose parallel_jobs : pyval)
| Call_test_project
    (working_dir preset test_filter verbose parallel_jobs : pyval).

(** The [working_dir] a core function was called with. *)
Definition call_working_dir (c : CoreCall) : pyval :=
  match c with
  | Call_health_check wd => wd
  | Call_list_presets wd => wd
  | Call_create_project wd _ _ => wd
  | Call_build_project wd _ _ _ _ => wd
  | Call_test_project wd _ _ _ _ => wd
  end.

Definition is_health_call (c : CoreCall) : bool :=
  match c with Call_health_check _ => true | _ => false end.

(** The module globals of server.py. *)
Record Globals : Type := mkGlobals {
  WORKING_DIRECTORY : pyval;
  IS_HEALTHY : pyval
}.

(** [WORKING_DIRECTORY: Optional[str] = None], [IS_HEALTHY: bool = False] *)
Definition initial_globals : Globals :=
  {| WORKING_DIRECTORY := PyNone; IS_HEALTHY := PyBool false |}.

Inductive PyExc : Type := TypeError.

Inductive Outcome (A : Type) : Type :=
| Returned (a : A)
| Raised (e : PyExc).
Arguments Returned {A} a.
Arguments Raised {A} e.

Inductive Transport : Type :=
| TransportStdio
| TransportHttp (host : string) (port : Z).

(** The parsed command line of [main]. *)
Record Args : Type := mkArgs {
  args_working_dir : option string;
  args_stdio : bool;
  args_http : bool;
  args_host : string;
  args_port : Z
}.

Section Server.

(** Everything outside the process: file system, tool chain, processes. *)
Variable World : Type.

(** [mcp_cmake.core] and [os.path.abspath], as the server uses them.  The
    core functions act on the world only, and they return: by the error
    policy of the specification every path of theirs ends in a result, no
    exception leaves them. *)
Record Core : Type := mkCore {
  core_health_check : pyval -> World -> pydict * World;
  core_list_presets : pyval -> World -> pyval * World;
  core_create_project : pyval -> pyval -> pyval -> World -> pyval * World;
  core_build_project :
    pyval -> pyval -> pyval -> pyval -> pyval -> World -> pyval * World;
  core_test_project :
    pyval -> pyval -> pyval -> pyval -> pyval -> World -> pyval * World;
  os_path_abspath : string -> string
}.

Variable core : Core.

Record Machine : Type := mkMachine {
  globals : Globals;
  world : World;
  calls : list CoreCall;
  stdout : list string
}.

Definition initial_machine (w : World) : Machine :=
  {| globals := initial_globals; world := w; calls := []; stdout := [] |}.

(** State and exception monad of the interpreter. *)
Definition M (A : Type) : Type := Machine -> Outcome A * Machine.

Definition ret {A} (a : A) : M A := fun m => (Returned a, m).

Definition bind {A B} (c : M A) (k : A -> M B) : M B :=
  fun m =>
    match c m with
    | (Returned a, m') => k a m'
    | (Raised e, m') => (Raised e, m')
    end.

Definition raise {A} (e : PyExc) : M A := fun m => (Raised e, m).

Notation "x <- c ;; k" := (bind c (fun x => k))
  (at level 61, c at next level, right associativity).
Notation "c ;;; k" := (bind c (fun _ => k))
  (at level 61, right associativity).

Definition read_globals : M Globals := fun m => (Returned (globals m), m).

Definition set_IS_HEALTHY (v : pyval) : M unit :=
  fun m =>
    (Returned tt,
     {| globals := {| WORKING_DIRECTORY := WORKING_DIRECTORY (globals m);
                      IS_HEALTHY := v |};
        world := world m; calls := calls m; stdout := stdout m |}).

Definition set_WORKING_DIRECTORY (v : pyval) : M unit :=
  fun m =>
    (Returned tt,
     {| globals := {| WORKING_DIRECTORY := v;
                      IS_HEALTHY := IS_HEALTHY (globals m) |};
        world := world m; calls := calls m; stdout := stdout m |}).

Definition print (line : string) : M unit :=
  fun m =>
    (Returned tt,
     {| globals := globals m; world := world m; calls := calls m;
        stdout := stdout m ++ [line] |}).

(** Calling into [mcp_cmake.core]: the call is logged, the world moves. *)
Definition call_core {A} (c : CoreCall) (f : World -> A * World) : M A :=
  fun m =>
    let (r, w') := f (world m) in
    (Returned r,
     {| globals := globals m; world := w'; calls := calls m ++ [c];
        stdout := stdout m |}).

(** A [def] with parameter list [ps] and the given body. *)
Definition pyfunc : Type := list pyval -> pydict -> M pyval.

Definition py_def (ps : params) (body : list pyval -> M pyval) : pyfunc :=
  fun args kwargs =>
    match bind_call ps args kwargs with
    | Some bound => body bound
    | None => raise TypeError
    end.

(** *** server.py *)

(** [def update_state(healthy, working_dir=None)] *)
Definition update_state (healthy working_dir : pyval) : M unit :=
  set_IS_HEALTHY healthy ;;;
  if truthy working_dir then set_WORKING_DIRECTORY working_dir else ret tt.

(** [def health_check(ctx, working_dir=None)] *)
Definition health_check (ctx working_dir : pyval) : M pyval :=
  result <- call_core (Call_health_check working_dir)
                      (core_health_check core working_dir) ;;
  update_state (dict_get result "is_healthy" (PyBool false))
               (dict_get result "working_directory" PyNone) ;;;
  ret (PyDict result).

Definition health_check_tool : pyfunc :=
  py_def [("ctx", None); ("working_dir", Some PyNone)]
    (fun bound =>
       match bound with
       | [ctx; working_dir] => health_check ctx working_dir
       | _ => raise TypeError
       end).

(** Modelled from the spec: [FailureResponse(summary=..., errors=...).dict()]
    of [mcp_cmake.models], which is not among the sources.  The spec gives
    the failure envelope as [{summary: string, errors: [{message,
    severity}]}]. *)
Definition FailureResponse_dict (summary : string) (errors : list pyval)
  : pyval :=
  PyDict [("summary", PyStr summary); ("errors", PyList errors)].

Definition gate_failure : pyval :=
  FailureResponse_dict "Server is not in a healthy state."
    [PyDict [("message", PyStr "Run health_check first.");
             ("severity", PyStr "error")]].

(** [def tool_guard(func)]: the wrapper it returns takes any positional
    and keyword arguments. *)
Definition tool_guard (func : pyfunc) : pyfunc :=
  fun args kwargs =>
    g <- read_globals ;;
    if negb (truthy (IS_HEALTHY g)) then ret gate_failure
    else func args (dict_set kwargs "working_dir" (WORKING_DIRECTORY g)).

Definition list_presets_def : pyfunc :=
  py_def [("ctx", None); ("working_dir", None)]
    (fun bound =>
       match bound with
       | [ctx; working_dir] =>
           call_core (Call_list_presets working_dir)
                     (core_list_presets core working_dir)
       | _ => raise TypeError
       end).

Definition create_project_def : pyfunc :=
  py_def [("ctx", None); ("working_dir", None); ("preset", None);
          ("cmake_defines", Some PyNone)]
    (fun bound =>
       match bound with
       | [ctx; working_dir; preset; cmake_defines] =>
           call_core (Call_create_project working_dir preset cmake_defines)
                     (core_create_project core working_dir preset
                                          cmake_defines)
       | _ => raise TypeError
       end).

Definition build_project_def : pyfunc :=
  py_def [("ctx", None); ("working_dir", None); ("preset", None);
          ("targets", Some PyNone); ("verbose", Some (PyBool false));
          ("parallel_jobs", Some PyNone)]
    (fun bound =>
       match bound with
       | [ctx; working_dir; preset; targets; verbose; parallel_jobs] =>
           call_core
             (Call_build_project working_dir preset targets verbose
                                 parallel_jobs)
             (core_build_project core working_dir preset targets verbose
                                 parallel_jobs)
       | _ => raise TypeError
       end).

Definition test_project_def : pyfunc :=
  py_def [("ctx", None); ("working_dir", None); ("preset", None);
          ("test_filter", Some PyNone); ("verbose", Some (PyBool false));
          ("parallel_jobs", Some PyNone)]
    (fun bound =>
       match bound with
       | [ctx; working_dir; preset; test_filter; verbose; parallel_jobs] =>
           call_core
             (Call_test_project working_dir preset test_filter verbose
                                parallel_jobs)
             (core_test_project core working_dir preset test_filter verbose
                                parallel_jobs)
       | _ => raise TypeError
       end).

(** The four tools as registered: [@mcp.tool @tool_guard def ...]. *)
Definition list_presets : pyfunc := tool_guard list_presets_def.
Definition create_project : pyfunc := tool_guard create_project_def.
Definition build_project : pyfunc := tool_guard build_project_def.
Definition test_project : pyfunc := tool_guard test_project_def.

Inductive GatedTool : Type :=
| ListPresets | CreateProject | BuildProject | TestProject.

Definition undecorated (t : GatedTool) : pyfunc :=
  match t with
  | ListPresets => list_presets_def
  | CreateProject => create_project_def
  | BuildProject => build_project_def
  | TestProject => test_project_def
  end.

Definition gated (t : GatedTool) : pyfunc :=
  match t with
  | ListPresets => list_presets
  | CreateProject => create_project
  | BuildProject => build_project
  | TestProject => test_project
  end.

(** The tools the transport can call, and a session: the requests of a
    client, served one after the other.  An exception ends the request it
    is raised in, not the process. *)
Inductive Tool : Type :=
| HealthCheck
| Gated (t : GatedTool).

Definition registered (t : Tool) : pyfunc :=
  match t with
  | HealthCheck => health_check_tool
  | Gated t' => gated t'
  end.

Record Request : Type := mkRequest {
  req_tool : Tool;
  req_args : list pyval;
  req_kwargs : pydict
}.

Definition is_health_request (r : Request) : bool :=
  match req_tool r with HealthCheck => true | Gated _ => false end.

Fixpoint serve (rs : list Request) (m : Machine)
  : list (Outcome pyval) * Machine :=
  match rs with
  | [] => ([], m)
  | r :: rs' =>
      let (o, m1) := registered (req_tool r) (req_args r) (req_kwargs r) m in
      let (os, m2) := serve rs' m1 in
      (o :: os, m2)
  end.

(** A call that went through, seen from outside: one core function, other
    than the health check, was called on directory [wd], its result was
    returned, and the globals and the output are as before. *)
Definition one_core_call (wd : pyval) (m : Machine)
           (res : Outcome pyval * Machine) : Prop :=
  exists c r w',
    is_health_call c = false /\
    call_working_dir c = wd /\
    res = (Returned r,
           {| globals := globals m; world := w';
              calls := calls m ++ [c]; stdout := stdout m |}).

(** The reading of "the health state is wholly replaced by the state the
    check produced": after [health_check], both globals hold what the
    result of [core.health_check] carries. *)
Definition health_state_replaced (m : Machine) (ctx working_dir : pyval)
  : Prop :=
  let result := fst (core_health_check core working_dir (world m)) in
  let m' := snd (health_check ctx working_dir m) in
  IS_HEALTHY (globals m') = dict_get result "is_healthy" (PyBool false) /\
  WORKING_DIRECTORY (globals m')
    = dict_get result "working_directory" PyNone.

(** The core function a log entry stands for, applied to the arguments the
    entry records. *)
Definition apply_core (c : CoreCall) (w : World) : pyval * World :=
  match c with
  | Call_health_check working_dir =>
      let (result, w') := core_health_check core working_dir w in
      (PyDict result, w')
  | Call_list_presets working_dir => core_list_presets core working_dir w
  | Call_create_project working_dir preset cmake_defines =>
      core_create_project core working_dir preset cmake_defines w
  | Call_build_project working_dir preset targets verbose parallel_jobs =>
      core_build_project core working_dir preset targets verbose
                         parallel_jobs w
  | Call_test_project working_dir preset test_filter verbose parallel_jobs =>
      core_test_project core working_dir preset test_filter verbose
                        parallel_jobs w
  end.

(** The tool whose core function a log entry stands for. *)
Definition call_tool (c : CoreCall) : option GatedTool :=
  match c with
  | Call_health_check _ => None
  | Call_list_presets _ => Some ListPresets
  | Call_create_project _ _ _ => Some CreateProject
  | Call_build_project _ _ _ _ _ => Some BuildProject
  | Call_test_project _ _ _ _ _ => Some TestProject
  end.

(** A call of tool [t] that went through on directory [wd]: the core
    function of [t] was applied, in the world of [m], to [wd] and the other
    arguments; what it returned is the result of the call, the world it
    left is the world afterwards, the application is logged, and the
    globals and the output are as before. *)
Definition runs_core_on (t : GatedTool) (wd : pyval) (m : Machine)
           (res : Outcome pyval * Machine) : Prop :=
  exists c,
    call_tool c = Some t /\
    call_working_dir c = wd /\
    res = (Returned (fst (apply_core c (world m))),
           {| globals := globals m;
              world := snd (apply_core c (world m));
              calls := calls m ++ [c];
              stdout := stdout m |}).

(** The reading of "the session becomes healthy only if the result maps
    is_healthy to exactly True, and is unhealthy when the key is absent":
    healthy is what the guard tests, IS_HEALTHY being truthy. *)
Definition healthy_only_if_exactly_true
           (m : Machine) (ctx working_dir : pyval) : Prop :=
  let result := fst (core_health_check core working_dir (world m)) in
  let m' := snd (health_check ctx working_dir m) in
  (truthy (IS_HEALTHY (globals m')) = true ->
   dict_lookup result "is_healthy" = Some (PyBool true)) /\
  (dict_lookup result "is_healthy" = None ->
   truthy (IS_HEALTHY (globals m')) = false).

(** [main], up to the point where the transport takes over: the optional
    health check of the directory given on the command line, and the
    transport [mcp.run] is started with. *)
Definition main (a : Args) : M Transport :=
  (match args_working_dir a with
   | Some d =>
       if truthy (PyStr d) then
         let initial_dir := os_path_abspath core d in
         print ("Initializing with working directory: "
                  ++ initial_dir)%string ;;;
         result <- call_core (Call_health_check (PyStr initial_dir))
                     (core_health_check core (PyStr initial_dir)) ;;
         update_state (dict_get result "is_healthy" (PyBool false))
                      (dict_get result "working_directory" PyNone) ;;;
         g <- read_globals ;;
         print ("Initial health check "
                  ++ (if truthy (IS_HEALTHY g) then "succeeded" else "failed")
                  ++ ".")%string
       else ret tt
   | None => ret tt
   end) ;;;
  if args_http a
  then ret (TransportHttp (args_host a) (args_port a))
  else ret TransportStdio.

End Server.

Arguments mkCore {World}.
Arguments core_health_check {World}.
Arguments core_list_presets {World}.
Arguments core_create_project {World}.
Arguments core_build_project {World}.
Arguments core_test_project {World}.
Arguments os_path_abspath {World}.
Arguments mkMachine {World}.
Arguments globals {World}.
Arguments world {World}.
Arguments calls {World}.
Arguments stdout {World}.
Arguments initial_machine {World}.
Arguments update_state {World}.
Arguments health_check {World}.
Arguments health_check_tool {World}.
Arguments tool_guard {World}.
Arguments undecorated {World}.
Arguments gated {World}.
Arguments list_presets {World}.
Arguments create_project {World}.
Arguments build_project {World}.
Arguments test_project {World}.
Arguments registered {World}.
Arguments serve {World}.
Arguments health_state_replaced {World}.
Arguments one_core_call {World}.
Arguments main {World}.
Arguments apply_core {World}.
Arguments runs_core_on {World}.
Arguments healthy_only_if_exactly_true {World}.

(** ** A scripted stand-in for [mcp_cmake.core]

    The test double of the unit tests: the world is the queue of results the
    next calls of [core.health_check] will return; the other functions return
    canned values. *)
Module Stub.

Definition World : Type := list pydict.

Definition unhealthy_result : pydict :=
  [("is_healthy", PyBool false);
   ("working_directory", PyNone);
   ("diagnostics",
    PyList [PyDict [("message", PyStr "/missing does not exist");
                    ("severity", PyStr "error")]])].

Definition healthy_result (d : string) : pydict :=
  [("is_healthy", PyBool true);
   ("working_directory", PyStr d);
   ("diagnostics", PyList [])].

Definition health_check (working_dir : pyval) (w : World) : pydict * World :=
  match w with
  | [] => (unhealthy_result, [])
  | r :: w' => (r, w')
  end.

Definition success (summary : string) : pyval :=
  PyDict [("summary", PyStr summary)].

Definition core : Core World :=
  {| core_health_check := health_check;
     core_list_presets :=
       fun _ w => (PyList [PyStr "debug"; PyStr "release"], w);
     core_create_project :=
       fun _ _ _ w => (success "Configured successfully", w);
     core_build_project :=
       fun _ _ _ _ _ w => (success "Build succeeded", w);
     core_test_project :=
       fun _ _ _ _ _ w => (success "Tests passed", w);
     os_path_abspath := fun d => d |}.

Definition ctx : pyval := PyObj 0.

(** A session that passed its health check on /tmp/proj. *)
Definition healthy_machine (w : World) : Machine World :=
  {| globals := {| WORKING_DIRECTORY := PyStr "/tmp/proj";
                   IS_HEALTHY := PyBool true |};
     world := w;
     calls := [Call_health_check (PyStr "/tmp/proj")];
     stdout := [] |}.

(** A result whose flag is not a bool: the string "false". *)
Definition mistyped_result : pydict :=
  [("is_healthy", PyStr "false"); ("working_directory", PyStr "/w")].

(** A fresh session whose first health check will pass. *)
Definition fresh_machine : Machine World :=
  initial_machine [healthy_result "/tmp/proj"].

(** A healthy session whose next health check will fail. *)
Definition stale_machine : Machine World :=
  healthy_machine [unhealthy_result].

End Stub.

(** ** The configure invocation *)
Module Configure.

(** Modelled from the spec: the InvocationSpec of the data model,
    [{executable, arguments: ordered sequence of string,
    working_directory, timeout}]; [mcp_cmake/core.py], which builds it, is
    not among the sources. *)
Record InvocationSpec : Type := mkInvocationSpec {
  executable : string;
  arguments : list string;
  working_directory : string;
  timeout : Z
}.

(** The defines of a request: a mapping from string to string, in
    insertion order. *)
Definition defines : Type := list (string * string).

(** Modelled from the spec: one override flag per define, of the form
    -D<KEY>=<VALUE>.  The flag is one element of the argument vector, so
    key and value go in as they are. *)
Definition define_flag (kv : string * string) : string :=
  ("-D" ++ fst kv ++ "=" ++ snd kv)%string.

(** Modelled from the spec: the ConfigureOrchestrator of
    [mcp_cmake/core.py] (not among the sources) "builds an InvocationSpec
    selecting the named preset and appending one override flag per entry
    in defines", in the order of the entries: [--preset <name>] followed
    by the flags, appended one at a time. *)
Definition append_defines (arguments : list string) (ds : defines)
  : list string :=
  fold_left (fun acc kv => acc ++ [define_flag kv]) ds arguments.

(** Modelled from the spec: the InvocationSpec the ConfigureOrchestrator
    runs, the preset selection followed by the override flags of the
    defines; absent defines give no flag. *)
Definition configure_invocation
  (driver working_dir : string) (limit : Z) (preset : string)
  (cmake_defines : option defines) : InvocationSpec :=
  {| executable := driver;
     arguments :=
       append_defines ["--preset"; preset]
         (match cmake_defines with Some ds => ds | None => [] end);
     working_directory := working_dir;
     timeout := limit |}.

(** An argument that is an override flag. *)
Definition is_define_flag (a : string) : bool := prefix "-D" a.

(** The arguments after the preset selection. *)
Definition override_flags (inv : InvocationSpec) : list string :=
  skipn 2 (arguments inv).

End Configure.

(** * Properties *)

(** ** Dicts and parameter binding *)

Lemma dict_lookup_set_same (d : pydict) (k : string) (v : pyval) :
  dict_lookup (dict_set d k v) k = Some v.
Proof.
  induction d as [|[k' v'] d IH]; simpl.
  - now rewrite String.eqb_refl.
  - destruct (k' =? k) eqn:E; simpl; rewrite E; auto.
Qed.

Lemma dict_lookup_set_other (d : pydict) (k k' : string) (v : pyval) :
  k <> k' -> dict_lookup (dict_set d k v) k' = dict_lookup d k'.
Proof.
  intros Hne. induction d as [|[k0 v0] d IH]; simpl.
  - destruct (k =? k') eqn:E; auto.
    apply String.eqb_eq in E. contradiction.
  - destruct (k0 =? k) eqn:E; simpl.
    + apply String.eqb_eq in E. subst k0.
      destruct (k =? k') eqn:E'; auto.
      apply String.eqb_eq in E'. contradiction.
    + now rewrite IH.
Qed.

Lemma bind_params_length (ps : params) :
  forall args kwargs bound,
    bind_params ps args kwargs = Some bound -> length bound = length ps.
Proof.
  induction ps as [|[name default] ps IH]; intros args kwargs bound H.
  - destruct args; simpl in H; [now inversion H | discriminate].
  - destruct args as [|a args]; simpl in H.
    + destruct (dict_lookup kwargs name) as [v|]; [|destruct default as [v|]];
        try discriminate;
        destruct (bind_params ps [] kwargs) as [b|] eqn:E; try discriminate;
        inversion H; subst; simpl; f_equal; eapply IH; eauto.
    + destruct (dict_mem kwargs name); try discriminate.
      destruct (bind_params ps args kwargs) as [b|] eqn:E; try discriminate.
      inversion H; subst; simpl; f_equal; eapply IH; eauto.
Qed.

(** A parameter that has a keyword argument is bound to it. *)
Lemma bind_params_keyword (ps : params) :
  forall args kwargs bound,
    bind_params ps args kwargs = Some bound ->
    forall i name default v,
      nth_error ps i = Some (name, default) ->
      dict_lookup kwargs name = Some v ->
      nth_error bound i = Some v.
Proof.
  induction ps as [|[name0 default0] ps IH];
    intros args kwargs bound H i name default v Hi Hk.
  - destruct i; discriminate.
  - destruct args as [|a args]; simpl in H.
    + destruct (dict_lookup kwargs name0) as [v0|] eqn:E0;
        [|destruct default0 as [v0|]]; try discriminate;
        destruct (bind_params ps [] kwargs) as [b|] eqn:E; try discriminate;
        inversion H; subst; clear H;
        (destruct i as [|i]; simpl in *;
         [inversion Hi; subst; congruence | eapply IH; eauto]).
    + unfold dict_mem in H.
      destruct (dict_lookup kwargs name0) as [v0|] eqn:E0; try discriminate.
      destruct (bind_params ps args kwargs) as [b|] eqn:E; try discriminate.
      inversion H; subst; clear H.
      destruct i as [|i]; simpl in *.
      * inversion Hi; subst. congruence.
      * eapply IH; eauto.
Qed.

(** ** The gate *)

Section Gate.

Variable World : Type.
Variable core : Core World.

Lemma tool_guard_unhealthy (func : pyfunc World) args kwargs
      (m : Machine World) :
  truthy (IS_HEALTHY (globals m)) = false ->
  tool_guard func args kwargs m = (Returned gate_failure, m).
Proof.
  intros H. unfold tool_guard, bind, read_globals, ret.
  now rewrite H.
Qed.

Lemma tool_guard_healthy (func : pyfunc World) args kwargs (m : Machine World) :
  truthy (IS_HEALTHY (globals m)) = true ->
  tool_guard func args kwargs m
  = func args
      (dict_set kwargs "working_dir" (WORKING_DIRECTORY (globals m))) m.
Proof.
  intros H. unfold tool_guard, bind, read_globals.
  now rewrite H.
Qed.

Lemma undecorated_cases (t : GatedTool) args kwargs wd (m : Machine World) :
  dict_lookup kwargs "working_dir" = Some wd ->
  undecorated core t args kwargs m = (Raised TypeError, m) \/
  one_core_call wd m (undecorated core t args kwargs m).
Proof.
  intros Hwd.
  destruct t; unfold undecorated, list_presets_def, create_project_def,
    build_project_def, test_project_def, py_def;
    match goal with
    | |- context [bind_call ?ps args kwargs] =>
        destruct (bind_call ps args kwargs) as [bound|] eqn:E
    end; try (left; reflexivity);
    unfold bind_call in E;
    match type of E with
    | (if ?c then _ else _) = _ => destruct c; [|discriminate E]
    end;
    pose proof (bind_params_keyword _ _ _ _ E 1 "working_dir" None wd
                  eq_refl Hwd) as K;
    pose proof (bind_params_length _ _ _ _ E) as L;
    repeat (destruct bound as [|? bound]; simpl in L; try discriminate L);
    simpl in K; injection K as K; subst;
    right; unfold one_core_call, call_core;
    match goal with
    | |- context [let (_, _) := ?f (world m) in _] =>
        destruct (f (world m)) as [r w'] eqn:F
    end;
    eexists _, r, w'; repeat split; reflexivity.
Qed.

Lemma gated_unhealthy (t : GatedTool) args kwargs (m : Machine World) :
  truthy (IS_HEALTHY (globals m)) = false ->
  gated core t args kwargs m = (Returned gate_failure, m).
Proof.
  intros H. destruct t; apply tool_guard_unhealthy; assumption.
Qed.

Lemma gated_healthy (t : GatedTool) args kwargs (m : Machine World) :
  truthy (IS_HEALTHY (globals m)) = true ->
  gated core t args kwargs m = (Raised TypeError, m) \/
  one_core_call (WORKING_DIRECTORY (globals m)) m
                (gated core t args kwargs m).
Proof.
  intros H.
  assert (E : gated core t args kwargs m
              = undecorated core t args
                  (dict_set kwargs "working_dir"
                            (WORKING_DIRECTORY (globals m))) m)
    by (destruct t; apply tool_guard_healthy; assumption).
  rewrite E. apply undecorated_cases, dict_lookup_set_same.
Qed.

Lemma gated_globals (t : GatedTool) args kwargs (m : Machine World) :
  globals (snd (gated core t args kwargs m)) = globals m.
Proof.
  destruct (truthy (IS_HEALTHY (globals m))) eqn:H.
  - destruct (gated_healthy t args kwargs m H)
      as [E | (c & r & w' & _ & _ & E)];
      rewrite E; reflexivity.
  - rewrite gated_unhealthy by assumption. reflexivity.
Qed.

End Gate.

(** ** The health check *)

Section HealthCheck.

Variable World : Type.
Variable core : Core World.

(** [update_state] in one step. *)
Lemma update_state_run (healthy working_dir : pyval) (m : Machine World) :
  update_state healthy working_dir m
  = (Returned tt,
     {| globals :=
          {| WORKING_DIRECTORY :=
               if truthy working_dir then working_dir
               else WORKING_DIRECTORY (globals m);
             IS_HEALTHY := healthy |};
        world := world m; calls := calls m; stdout := stdout m |}).
Proof.
  unfold update_state, bind, set_IS_HEALTHY, set_WORKING_DIRECTORY, ret.
  destruct (truthy working_dir); reflexivity.
Qed.

(** [health_check] in one step: the core function is called, the globals
    are updated from its result, the result is returned. *)
Lemma health_check_run (ctx working_dir : pyval) (m : Machine World) :
  health_check core ctx working_dir m
  = let result := fst (core_health_check core working_dir (world m)) in
    (Returned (PyDict result),
     {| globals :=
          {| WORKING_DIRECTORY :=
               if truthy (dict_get result "working_directory" PyNone)
               then dict_get result "working_directory" PyNone
               else WORKING_DIRECTORY (globals m);
             IS_HEALTHY := dict_get result "is_healthy" (PyBool false) |};
        world := snd (core_health_check core working_dir (world m));
        calls := calls m ++ [Call_health_check working_dir];
        stdout := stdout m |}).
Proof.
  unfold health_check, bind, call_core.
  destruct (core_health_check core working_dir (world m)) as [r w'].
  rewrite update_state_run. reflexivity.
Qed.

(** The registered tool either fails to bind its arguments or is
    [health_check] on some context and directory. *)
Lemma health_check_tool_cases args kwargs (m : Machine World) :
  health_check_tool core args kwargs m = (Raised TypeError, m) \/
  exists ctx working_dir,
    health_check_tool core args kwargs m
    = health_check core ctx working_dir m.
Proof.
  unfold health_check_tool, py_def.
  destruct (bind_call _ args kwargs) as [bound|] eqn:E;
    [|left; reflexivity].
  unfold bind_call in E.
  match type of E with
  | (if ?c then _ else _) = _ => destruct c; [|discriminate E]
  end.
  pose proof (bind_params_length _ _ _ _ E) as L.
  repeat (destruct bound as [|? bound]; simpl in L; try discriminate L).
  right. eauto.
Qed.

(** The registered tool, called the way the transport calls it. *)
Lemma health_check_tool_keyword (ctx working_dir : pyval)
      (m : Machine World) :
  health_check_tool core [ctx] [("working_dir", working_dir)] m
  = health_check core ctx working_dir m.
Proof. reflexivity. Qed.

Lemma health_check_tool_default (ctx : pyval) (m : Machine World) :
  health_check_tool core [ctx] [] m = health_check core ctx PyNone m.
Proof. reflexivity. Qed.

(** A health check never replaces a truthy directory by a falsy one. *)
Lemma health_check_keeps_directory (ctx working_dir : pyval)
      (m : Machine World) :
  truthy (WORKING_DIRECTORY (globals m)) = true ->
  truthy (WORKING_DIRECTORY
            (globals (snd (health_check core ctx working_dir m)))) = true.
Proof.
  intros H. rewrite health_check_run. simpl.
  destruct (truthy (dict_get _ "working_directory" PyNone)) eqn:E; auto.
Qed.

Lemma registered_keeps_directory (r : Request) (m : Machine World) :
  truthy (WORKING_DIRECTORY (globals m)) = true ->
  truthy (WORKING_DIRECTORY
            (globals (snd (registered core (req_tool r) (req_args r)
                                      (req_kwargs r) m)))) = true.
Proof.
  intros H. destruct (req_tool r) as [|t]; simpl.
  - destruct (health_check_tool_cases (req_args r) (req_kwargs r) m)
      as [E | (ctx & wd & E)]; rewrite E; simpl; auto.
    now apply health_check_keeps_directory.
  - now rewrite gated_globals.
Qed.

Lemma serve_keeps_directory (rs : list Request) :
  forall m : Machine World,
    truthy (WORKING_DIRECTORY (globals m)) = true ->
    truthy (WORKING_DIRECTORY (globals (snd (serve core rs m)))) = true.
Proof.
  induction rs as [|r rs IH]; intros m H; simpl; auto.
  pose proof (registered_keeps_directory r m H) as H1.
  destruct (registered core (req_tool r) (req_args r) (req_kwargs r) m)
    as [o m1].
  specialize (IH m1 H1).
  destruct (serve core rs m1) as [os m2]. exact IH.
Qed.

(** A session without health check leaves the globals alone. *)
Lemma serve_gated_globals (rs : list Request) :
  forall m : Machine World,
    forallb (fun r => negb (is_health_request r)) rs = true ->
    globals (snd (serve core rs m)) = globals m.
Proof.
  induction rs as [|r rs IH]; intros m H; simpl in *; auto.
  apply andb_true_iff in H as [Hr Hrs].
  unfold is_health_request in Hr.
  destruct (req_tool r) as [|t] eqn:Et; [discriminate|]. simpl.
  pose proof (gated_globals World core t (req_args r) (req_kwargs r) m) as G.
  destruct (gated core t (req_args r) (req_kwargs r) m) as [o m1].
  specialize (IH m1 Hrs).
  destruct (serve core rs m1) as [os m2]. simpl in *. congruence.
Qed.

(** While the flag is falsy, a session without health check is refused
    request by request and leaves the machine as it was. *)
Lemma serve_gated_unhealthy (rs : list Request) :
  forall m : Machine World,
    truthy (IS_HEALTHY (globals m)) = false ->
    forallb (fun r => negb (is_health_request r)) rs = true ->
    serve core rs m = (map (fun _ => Returned gate_failure) rs, m).
Proof.
  induction rs as [|r rs IH]; intros m Hm H; simpl in *; auto.
  apply andb_true_iff in H as [Hr Hrs].
  unfold is_health_request in Hr.
  destruct (req_tool r) as [|t] eqn:Et; [discriminate|]. simpl.
  rewrite gated_unhealthy by assumption.
  now rewrite IH.
Qed.

Lemma forallb_filter_id {A} (p : A -> bool) (l : list A) :
  forallb p (filter p l) = true.
Proof.
  induction l as [|a l IH]; simpl; auto.
  destruct (p a) eqn:E; simpl; auto. now rewrite E.
Qed.

End HealthCheck.

(** ** The claims about the gate *)

Section GateClaims.

Variable World : Type.
Variable core : Core World.

(** C1: when the health flag is false (or any falsy value) at call entry,
    each of list_presets, create_project, build_project and test_project
    returns exactly the failure envelope "Server is not in a healthy
    state." / "Run health_check first." / "error", whatever its arguments,
    and leaves the whole machine as it was: no core function is called
    (the call log is unchanged) and the world is untouched. *)
Theorem gated_tool_refused_when_unhealthy
        (t : GatedTool) (args : list pyval) (kwargs : pydict)
        (m : Machine World) :
  truthy (IS_HEALTHY (globals m)) = false ->
  gated core t args kwargs m
  = (Returned
       (PyDict
          [("summary", PyStr "Server is not in a healthy state.");
           ("errors",
            PyList [PyDict [("message", PyStr "Run health_check first.");
                            ("severity", PyStr "error")]])]),
     m)
  /\ calls (snd (gated core t args kwargs m)) = calls m
  /\ world (snd (gated core t args kwargs m)) = world m.
Proof.
  intros H. rewrite gated_unhealthy by assumption.
  repeat split.
Qed.

(** C3: a call of list_presets, create_project, build_project or
    test_project leaves IS_HEALTHY and WORKING_DIRECTORY as they were, in
    every session state and for every argument list, also when the call
    raises; so does every session made of such calls only. *)
Theorem gated_tool_keeps_session_state
        (t : GatedTool) (args : list pyval) (kwargs : pydict)
        (m : Machine World) :
  IS_HEALTHY (globals (snd (gated core t args kwargs m)))
  = IS_HEALTHY (globals m)
  /\ WORKING_DIRECTORY (globals (snd (gated core t args kwargs m)))
     = WORKING_DIRECTORY (globals m)
  /\ forall rs : list Request,
      globals
        (snd (serve core
                    (filter (fun r => negb (is_health_request r)) rs) m))
      = globals m.
Proof.
  rewrite gated_globals. repeat split.
  intros rs. apply serve_gated_globals, forallb_filter_id.
Qed.

(** C4: the module starts with IS_HEALTHY = False and WORKING_DIRECTORY =
    None; [main] without a working directory on the command line leaves
    that state; and from it every gated tool, and every session of gated
    tools run before any health check, is answered with the gate's
    failure envelope only, the machine staying in its initial state. *)
Theorem initial_session_is_gated (w : World) :
  initial_globals = {| WORKING_DIRECTORY := PyNone;
                       IS_HEALTHY := PyBool false |}
  /\ globals (initial_machine w) = initial_globals
  /\ (forall stdio http host port,
         snd (main core (mkArgs None stdio http host port)
                   (initial_machine w))
         = initial_machine w)
  /\ (forall t args kwargs,
         gated core t args kwargs (initial_machine w)
         = (Returned gate_failure, initial_machine w))
  /\ (forall rs : list Request,
         let gated_only :=
           filter (fun r => negb (is_health_request r)) rs in
         serve core gated_only (initial_machine w)
         = (map (fun _ => Returned gate_failure) gated_only,
            initial_machine w)).
Proof.
  repeat split.
  - intros stdio http host port. unfold main, bind, ret. simpl.
    destruct http; reflexivity.
  - intros. now apply gated_unhealthy.
  - intros rs gated_only. apply serve_gated_unhealthy.
    + reflexivity.
    + apply forallb_filter_id.
Qed.

(** C6: health_check is not behind the gate.  In every session state,
    the flag being falsy included, a call runs core.health_check once on
    the directory it was given, stores the result's flag in IS_HEALTHY and
    returns the result; the registered tool called with keywords is that
    function.  The four other tools are refused in the same state. *)
Theorem health_check_is_not_gated
        (ctx working_dir : pyval) (m : Machine World) :
  let result := fst (core_health_check core working_dir (world m)) in
  let m' := snd (health_check core ctx working_dir m) in
  fst (health_check core ctx working_dir m) = Returned (PyDict result)
  /\ calls m' = calls m ++ [Call_health_check working_dir]
  /\ world m' = snd (core_health_check core working_dir (world m))
  /\ IS_HEALTHY (globals m') = dict_get result "is_healthy" (PyBool false)
  /\ WORKING_DIRECTORY (globals m')
     = (if truthy (dict_get result "working_directory" PyNone)
        then dict_get result "working_directory" PyNone
        else WORKING_DIRECTORY (globals m))
  /\ health_check_tool core [ctx] [("working_dir", working_dir)] m
     = health_check core ctx working_dir m
  /\ health_check_tool core [ctx] [] m = health_check core ctx PyNone m
  /\ (truthy (IS_HEALTHY (globals m)) = false ->
      forall t args kwargs,
        gated core t args kwargs m = (Returned gate_failure, m)).
Proof.
  intros result m'. subst result m'.
  rewrite health_check_tool_keyword, health_check_tool_default.
  rewrite health_check_run. simpl.
  do 7 (split; [reflexivity|]).
  intros H t args kwargs. now apply gated_unhealthy.
Qed.

End GateClaims.

(** ** The claims about what crosses the gate *)

Section ForwardingClaims.

Variable World : Type.
Variable core : Core World.

Ltac open_gate H :=
  unfold list_presets, create_project, build_project, test_project;
  rewrite (tool_guard_healthy World _ _ _ _ H);
  unfold list_presets_def, create_project_def, build_project_def,
    test_project_def, py_def, call_core; cbn;
  match goal with
  | |- context [let (_, _) := ?f (world ?m) in _] =>
      destruct (f (world m)) as [r w']
  end;
  reflexivity.

(** An undecorated tool called with a working_dir keyword raises on its
    arguments or applies its core function to that directory. *)
Lemma undecorated_runs (t : GatedTool) args kwargs wd (m : Machine World) :
  dict_lookup kwargs "working_dir" = Some wd ->
  undecorated core t args kwargs m = (Raised TypeError, m) \/
  runs_core_on core t wd m (undecorated core t args kwargs m).
Proof.
  intros Hwd.
  destruct t; unfold undecorated, list_presets_def, create_project_def,
    build_project_def, test_project_def, py_def;
    match goal with
    | |- context [bind_call ?ps args kwargs] =>
        destruct (bind_call ps args kwargs) as [bound|] eqn:E
    end; try (left; reflexivity);
    unfold bind_call in E;
    match type of E with
    | (if ?c then _ else _) = _ => destruct c; [|discriminate E]
    end;
    pose proof (bind_params_keyword _ _ _ _ E 1 "working_dir" None wd
                  eq_refl Hwd) as K;
    pose proof (bind_params_length _ _ _ _ E) as L;
    repeat (destruct bound as [|? bound]; simpl in L; try discriminate L);
    simpl in K; injection K as K; subst;
    right; unfold runs_core_on, call_core;
    match goal with
    | |- context [let (_, _) := ?f (world m) in _] =>
        match f with
        | core_list_presets _ ?wd =>
            exists (Call_list_presets wd)
        | core_create_project _ ?wd ?p ?d =>
            exists (Call_create_project wd p d)
        | core_build_project _ ?wd ?p ?ts ?v ?j =>
            exists (Call_build_project wd p ts v j)
        | core_test_project _ ?wd ?p ?f' ?v ?j =>
            exists (Call_test_project wd p f' v j)
        end;
        cbn [call_tool call_working_dir apply_core];
        destruct (f (world m)) as [r w']
    end;
    repeat split; reflexivity.
Qed.

Lemma gated_runs (t : GatedTool) args kwargs (m : Machine World) :
  truthy (IS_HEALTHY (globals m)) = true ->
  gated core t args kwargs m = (Raised TypeError, m) \/
  runs_core_on core t (WORKING_DIRECTORY (globals m)) m
               (gated core t args kwargs m).
Proof.
  intros H.
  assert (E : gated core t args kwargs m
              = undecorated core t args
                  (dict_set kwargs "working_dir"
                            (WORKING_DIRECTORY (globals m))) m)
    by (destruct t; apply tool_guard_healthy; assumption).
  rewrite E. apply undecorated_runs, dict_lookup_set_same.
Qed.

(** C8: once the gate is passed, the working_dir that reaches the core
    function is the session's WORKING_DIRECTORY, for each of the four
    tools.  For arbitrary arguments the call either raises TypeError
    before any core call (a positional working_dir now has two values) or
    applies the core function of the tool to WORKING_DIRECTORY: the result
    of the call and the world afterwards are those of that application.
    A call with keywords is that application on WORKING_DIRECTORY and the
    other keywords, and the working_dir keyword the caller supplied is
    overridden. *)
Theorem gated_tool_forwards_session_directory
        (t : GatedTool) (args : list pyval) (kwargs : pydict)
        (m : Machine World) :
  truthy (IS_HEALTHY (globals m)) = true ->
  let wd := WORKING_DIRECTORY (globals m) in
  (gated core t args kwargs m = (Raised TypeError, m) \/
   runs_core_on core t wd m (gated core t args kwargs m))
  /\ (forall ctx w,
         list_presets core [ctx] [("working_dir", w)] m
         = (Returned (fst (core_list_presets core wd (world m))),
            {| globals := globals m;
               world := snd (core_list_presets core wd (world m));
               calls := calls m ++ [Call_list_presets wd];
               stdout := stdout m |}))
  /\ (forall ctx w preset cmake_defines,
         create_project core [ctx]
           [("working_dir", w); ("preset", preset);
            ("cmake_defines", cmake_defines)] m
         = (Returned
              (fst (core_create_project core wd preset cmake_defines
                                        (world m))),
            {| globals := globals m;
               world :=
                 snd (core_create_project core wd preset cmake_defines
                                          (world m));
               calls :=
                 calls m ++ [Call_create_project wd preset cmake_defines];
               stdout := stdout m |}))
  /\ (forall ctx w preset targets verbose parallel_jobs,
         build_project core [ctx]
           [("working_dir", w); ("preset", preset);
            ("targets", targets); ("verbose", verbose);
            ("parallel_jobs", parallel_jobs)] m
         = (Returned
              (fst (core_build_project core wd preset targets verbose
                                       parallel_jobs (world m))),
            {| globals := globals m;
               world :=
                 snd (core_build_project core wd preset targets verbose
                                         parallel_jobs (world m));
               calls :=
                 calls m
                   ++ [Call_build_project wd preset targets verbose
                                          parallel_jobs];
               stdout := stdout m |}))
  /\ (forall ctx w preset test_filter verbose parallel_jobs,
         test_project core [ctx]
           [("working_dir", w); ("preset", preset);
            ("test_filter", test_filter); ("verbose", verbose);
            ("parallel_jobs", parallel_jobs)] m
         = (Returned
              (fst (core_test_project core wd preset test_filter verbose
                                      parallel_jobs (world m))),
            {| globals := globals m;
               world :=
                 snd (core_test_project core wd preset test_filter verbose
                                        parallel_jobs (world m));
               calls :=
                 calls m
                   ++ [Call_test_project wd preset test_filter verbose
                                         parallel_jobs];
               stdout := stdout m |})).
Proof.
  intros H wd. subst wd.
  split; [now apply gated_runs|].
  split; [intros; open_gate H|].
  split; [intros; open_gate H|].
  split; intros; open_gate H.
Qed.

End ForwardingClaims.

(** ** The claims about the health state *)

Section HealthClaims.

Variable World : Type.
Variable core : Core World.

(** The globals after [main] was given a non-empty working directory. *)
Lemma main_globals (a : Args) (d : string) (m : Machine World) :
  args_working_dir a = Some d ->
  truthy (PyStr d) = true ->
  let initial_dir := PyStr (os_path_abspath core d) in
  let result := fst (core_health_check core initial_dir (world m)) in
  globals (snd (main core a m))
  = {| WORKING_DIRECTORY :=
         if truthy (dict_get result "working_directory" PyNone)
         then dict_get result "working_directory" PyNone
         else WORKING_DIRECTORY (globals m);
       IS_HEALTHY := dict_get result "is_healthy" (PyBool false) |}
  /\ calls (snd (main core a m)) = calls m ++ [Call_health_check initial_dir].
Proof.
  intros Ha Hd initial_dir result. subst initial_dir result.
  unfold main. rewrite Ha, Hd.
  unfold bind, print, call_core, read_globals. simpl world.
  destruct (core_health_check core _ (world m)) as [r w'].
  rewrite update_state_run. cbn.
  destruct (args_http a); cbn; split; reflexivity.
Qed.

(** C2 (as amended): after every health_check, whatever the state before,
    IS_HEALTHY is the flag of the result; WORKING_DIRECTORY is the
    result's working_directory when that is truthy, and otherwise the
    directory that was stored before the call. *)
Theorem health_check_replaces_flag_and_truthy_directory
        (ctx working_dir : pyval) (m : Machine World) :
  let result := fst (core_health_check core working_dir (world m)) in
  let m' := snd (health_check core ctx working_dir m) in
  IS_HEALTHY (globals m') = dict_get result "is_healthy" (PyBool false)
  /\ WORKING_DIRECTORY (globals m')
     = (if truthy (dict_get result "working_directory" PyNone)
        then dict_get result "working_directory" PyNone
        else WORKING_DIRECTORY (globals m)).
Proof.
  intros result m'. subst result m'.
  rewrite health_check_run. split; reflexivity.
Qed.

(** C5: after every health_check, IS_HEALTHY is exactly what the result
    holds under is_healthy ([False] when the key is missing), whatever
    the flag was before; when that value is falsy, the gate is closed
    afterwards, also if the session was healthy before the call. *)
Theorem health_flag_follows_every_check
        (ctx working_dir : pyval) (m : Machine World) :
  let result := fst (core_health_check core working_dir (world m)) in
  let m' := snd (health_check core ctx working_dir m) in
  IS_HEALTHY (globals m') = dict_get result "is_healthy" (PyBool false)
  /\ (truthy (dict_get result "is_healthy" (PyBool false)) = false ->
      forall t args kwargs,
        gated core t args kwargs m' = (Returned gate_failure, m')).
Proof.
  intros result m'.
  assert (E : IS_HEALTHY (globals m')
              = dict_get result "is_healthy" (PyBool false))
    by (subst result m'; rewrite health_check_run; reflexivity).
  split; [exact E|].
  intros F t args kwargs. apply gated_unhealthy. now rewrite E.
Qed.


(** What [result.get("is_healthy", False)] can be: it is truthy exactly
    when the result holds a truthy value under the key, it is False when
    the key is missing, and a bool is truthy only when it is True. *)
Lemma flag_cases (result : pydict) :
  (truthy (dict_get result "is_healthy" (PyBool false)) = true <->
   exists v, dict_lookup result "is_healthy" = Some v /\ truthy v = true)
  /\ (dict_lookup result "is_healthy" = None ->
      dict_get result "is_healthy" (PyBool false) = PyBool false)
  /\ (health_flag_typed result = true ->
      (truthy (dict_get result "is_healthy" (PyBool false)) = true <->
       dict_lookup result "is_healthy" = Some (PyBool true))).
Proof.
  unfold health_flag_typed, dict_get.
  destruct (dict_lookup result "is_healthy") as [v|].
  - split; [|split; [discriminate|]].
    + split; [intros Hv; exists v; auto|].
      intros (v' & E & Hv). now inversion E; subst.
    + intros Hb. destruct v; try discriminate Hb. simpl.
      split; congruence.
  - split; [|split; [reflexivity|]].
    + simpl. split; [discriminate|]. intros (v' & E & _). discriminate E.
    + intros _. simpl. split; discriminate.
Qed.


End HealthClaims.

(** ** The configure invocation *)

Lemma append_defines_map (ds : Configure.defines) :
  forall arguments,
    Configure.append_defines arguments ds
    = arguments ++ map Configure.define_flag ds.
Proof.
  unfold Configure.append_defines.
  induction ds as [|kv ds IH]; intros arguments; simpl.
  - now rewrite app_nil_r.
  - rewrite IH, <- app_assoc. reflexivity.
Qed.

Lemma define_flag_recognised (kv : string * string) :
  Configure.is_define_flag (Configure.define_flag kv) = true.
Proof.
  unfold Configure.is_define_flag, Configure.define_flag.
  generalize (fst kv ++ "=" ++ snd kv)%string. intros rest.
  destruct rest; reflexivity.
Qed.

Lemma define_flags_recognised (ds : Configure.defines) :
  filter Configure.is_define_flag (map Configure.define_flag ds)
  = map Configure.define_flag ds.
Proof.
  induction ds as [|kv ds IH]; [reflexivity|].
  cbn [map filter]. now rewrite define_flag_recognised, IH.
Qed.

Lemma define_flags_pairwise (ds : Configure.defines) :
  Forall2 (fun kv flag => flag = ("-D" ++ fst kv ++ "=" ++ snd kv)%string)
          ds (map Configure.define_flag ds).
Proof.
  induction ds as [|kv ds IH]; simpl; constructor; auto.
Qed.

(** C7: the configure invocation built for a preset and a defines map
    with N entries is [--preset <name>] followed by exactly N override
    flags, the i-th being -D<KEY>=<VALUE> of the i-th entry in insertion
    order; every one of them is recognised as a -D flag; without defines
    there is none. *)
Theorem configure_emits_one_flag_per_define
        (driver working_dir : string) (limit : Z) (preset : string)
        (ds : Configure.defines) :
  let inv :=
    Configure.configure_invocation driver working_dir limit preset (Some ds)
  in
  Configure.arguments inv
  = ["--preset"; preset] ++ map Configure.define_flag ds
  /\ length (Configure.override_flags inv) = length ds
  /\ Forall2
       (fun kv flag => flag = ("-D" ++ fst kv ++ "=" ++ snd kv)%string)
       ds (Configure.override_flags inv)
  /\ length (filter Configure.is_define_flag (Configure.override_flags inv))
     = length ds
  /\ Configure.arguments
       (Configure.configure_invocation driver working_dir limit preset None)
     = ["--preset"; preset].
Proof.
  intros inv. subst inv.
  unfold Configure.override_flags, Configure.configure_invocation. simpl.
  rewrite append_defines_map. simpl.
  split; [reflexivity|].
  split; [apply length_map|].
  split; [apply define_flags_pairwise|].
  split; [|reflexivity].
  rewrite define_flags_recognised. apply length_map.
Qed.

(** ** The scenarios of the specification, run on the scripted core *)

(** Healthy flow: the check on /tmp/proj passes, list_presets and
    create_project reach the core with the session's directory. *)
Example healthy_flow :
  let m0 := initial_machine [Stub.healthy_result "/tmp/proj"] in
  let (o1, m1) := health_check Stub.core Stub.ctx (PyStr "/tmp/proj") m0 in
  let (o2, m2) := list_presets Stub.core [Stub.ctx] [] m1 in
  let (o3, m3) :=
    create_project Stub.core [Stub.ctx]
      [("preset", PyStr "debug");
       ("cmake_defines", PyDict [("FOO", PyStr "1")])] m2 in
  o1 = Returned (PyDict (Stub.healthy_result "/tmp/proj"))
  /\ o2 = Returned (PyList [PyStr "debug"; PyStr "release"])
  /\ o3 = Returned (Stub.success "Configured successfully")
  /\ globals m3 = {| WORKING_DIRECTORY := PyStr "/tmp/proj";
                     IS_HEALTHY := PyBool true |}
  /\ calls m3 = [Call_health_check (PyStr "/tmp/proj");
                 Call_list_presets (PyStr "/tmp/proj");
                 Call_create_project (PyStr "/tmp/proj") (PyStr "debug")
                                     (PyDict [("FOO", PyStr "1")])].
Proof. cbn. repeat split. Qed.

(** Unhealthy flow: the check on /missing fails, build_project is refused
    and the core is not called again. *)
Example unhealthy_flow :
  let m0 := initial_machine [Stub.unhealthy_result] in
  let (o1, m1) := health_check Stub.core Stub.ctx (PyStr "/missing") m0 in
  let (o2, m2) :=
    build_project Stub.core [Stub.ctx] [("preset", PyStr "debug")] m1 in
  o1 = Returned (PyDict Stub.unhealthy_result)
  /\ o2 = Returned gate_failure
  /\ calls m2 = [Call_health_check (PyStr "/missing")].
Proof. cbn. repeat split. Qed.

(** A positional working_dir collides with the keyword the guard adds. *)
Example positional_working_dir_raises :
  list_presets Stub.core [Stub.ctx; PyStr "/elsewhere"] []
               (Stub.healthy_machine [])
  = (Raised TypeError, Stub.healthy_machine []).
Proof. reflexivity. Qed.

(** The configure invocation of the specification's healthy flow. *)
Example configure_debug_foo :
  Configure.arguments
    (Configure.configure_invocation "cmake" "/tmp/proj" 300 "debug"
                                    (Some [("FOO", "1")]))
  = ["--preset"; "debug"; "-DFOO=1"].
Proof. reflexivity. Qed.

(** ** Instances *)

Lemma gated_tool_refused_when_unhealthy_witness :
  truthy (IS_HEALTHY (globals (initial_machine (World := Stub.World) [])))
  = false
  /\ gated Stub.core BuildProject [Stub.ctx] [("preset", PyStr "debug")]
           (initial_machine [])
     = (Returned gate_failure, initial_machine []).
Proof.
  split; [reflexivity|].
  exact (proj1 (gated_tool_refused_when_unhealthy
                  Stub.World Stub.core BuildProject [Stub.ctx]
                  [("preset", PyStr "debug")] (initial_machine [])
                  eq_refl)).
Defined.

Lemma gated_tool_forwards_session_directory_witness :
  truthy (IS_HEALTHY (globals (Stub.healthy_machine []))) = true
  /\ create_project Stub.core [Stub.ctx]
       [("working_dir", PyStr "/elsewhere");
        ("preset", PyStr "debug");
        ("cmake_defines", PyDict [("FOO", PyStr "1")])]
       (Stub.healthy_machine [])
     = (Returned
          (fst (core_create_project Stub.core (PyStr "/tmp/proj")
                  (PyStr "debug") (PyDict [("FOO", PyStr "1")]) [])),
        {| globals := globals (Stub.healthy_machine []);
           world :=
             snd (core_create_project Stub.core (PyStr "/tmp/proj")
                    (PyStr "debug") (PyDict [("FOO", PyStr "1")]) []);
           calls :=
             [Call_health_check (PyStr "/tmp/proj");
              Call_create_project (PyStr "/tmp/proj") (PyStr "debug")
                                  (PyDict [("FOO", PyStr "1")])];
           stdout := [] |}).
Proof.
  split; [reflexivity|].
  exact (proj1 (proj2 (proj2 (gated_tool_forwards_session_directory
                                Stub.World Stub.core CreateProject [] []
                                (Stub.healthy_machine []) eq_refl)))
               Stub.ctx (PyStr "/elsewhere") (PyStr "debug")
               (PyDict [("FOO", PyStr "1")])).
Defined.

Lemma health_flag_follows_every_check_witness :
  truthy (dict_get (fst (core_health_check Stub.core (PyStr "/missing")
                                           (world Stub.stale_machine)))
                   "is_healthy" (PyBool false)) = false
  /\ IS_HEALTHY
       (globals (snd (health_check Stub.core Stub.ctx (PyStr "/missing")
                                   Stub.stale_machine)))
     = PyBool false
  /\ gated Stub.core ListPresets [Stub.ctx] []
           (snd (health_check Stub.core Stub.ctx (PyStr "/missing")
                              Stub.stale_machine))
     = (Returned gate_failure,
        snd (health_check Stub.core Stub.ctx (PyStr "/missing")
                          Stub.stale_machine)).
Proof.
  pose proof (health_flag_follows_every_check
                Stub.World Stub.core Stub.ctx (PyStr "/missing")
                Stub.stale_machine) as [E G].
  split; [reflexivity|]. split; [exact E|].
  exact (G eq_refl ListPresets [Stub.ctx] []).
Defined.

Lemma health_check_is_not_gated_witness :
  truthy (IS_HEALTHY (globals Stub.fresh_machine)) = false
  /\ calls (snd (health_check Stub.core Stub.ctx (PyStr "/tmp/proj")
                              Stub.fresh_machine))
     = [Call_health_check (PyStr "/tmp/proj")]
  /\ test_project Stub.core [Stub.ctx] [("preset", PyStr "debug")]
                  Stub.fresh_machine
     = (Returned gate_failure, Stub.fresh_machine).
Proof.
  pose proof (health_check_is_not_gated
                Stub.World Stub.core Stub.ctx (PyStr "/tmp/proj")
                Stub.fresh_machine)
    as (_ & C & _ & _ & _ & _ & _ & G).
  split; [reflexivity|]. split; [exact C|].
  exact (G eq_refl TestProject [Stub.ctx] [("preset", PyStr "debug")]).
Defined.




(** C2 (as stated) fails: a healthy session on /tmp/proj runs a check on
    /missing; the result carries is_healthy = False and no directory, the
    flag becomes False, and /tmp/proj stays in WORKING_DIRECTORY. *)
Lemma health_state_not_wholly_replaced :
  dict_get (fst (core_health_check Stub.core (PyStr "/missing")
                                   (world Stub.stale_machine)))
           "working_directory" PyNone = PyNone
  /\ globals (snd (health_check Stub.core Stub.ctx (PyStr "/missing")
                                Stub.stale_machine))
     = {| WORKING_DIRECTORY := PyStr "/tmp/proj";
          IS_HEALTHY := PyBool false |}
  /\ ~ health_state_replaced Stub.core Stub.stale_machine Stub.ctx
                             (PyStr "/missing").
Proof.
  split; [reflexivity|]. split; [reflexivity|].
  unfold health_state_replaced. cbn. intros [_ H]. discriminate H.
Qed.

(** * Further properties of server.py *)

(** ** Start-up *)

Section Startup.

Variable World : Type.
Variable core : Core World.

(** [main] in one step, when a non-empty working directory is given. *)
Lemma main_run (a : Args) (d : string) (m : Machine World) :
  args_working_dir a = Some d ->
  truthy (PyStr d) = true ->
  let initial_dir := os_path_abspath core d in
  let checked := core_health_check core (PyStr initial_dir) (world m) in
  let flag := dict_get (fst checked) "is_healthy" (PyBool false) in
  main core a m
  = (Returned (if args_http a
               then TransportHttp (args_host a) (args_port a)
               else TransportStdio),
     {| globals :=
          {| WORKING_DIRECTORY :=
               if truthy (dict_get (fst checked) "working_directory" PyNone)
               then dict_get (fst checked) "working_directory" PyNone
               else WORKING_DIRECTORY (globals m);
             IS_HEALTHY := flag |};
        world := snd checked;
        calls := calls m ++ [Call_health_check (PyStr initial_dir)];
        stdout :=
          (stdout m
             ++ [("Initializing with working directory: "
                    ++ initial_dir)%string])
            ++ [("Initial health check "
                   ++ (if truthy flag then "succeeded" else "failed")
                   ++ ".")%string] |}).
Proof.
  intros Ha Hd initial_dir checked flag. subst initial_dir checked flag.
  unfold main. rewrite Ha, Hd.
  unfold bind, print, call_core, read_globals. simpl world.
  destruct (core_health_check core _ (world m)) as [r w'].
  rewrite update_state_run. cbn.
  destruct (args_http a); reflexivity.
Qed.

(** X1: the health check that [main] runs for a non-empty --working-dir
    leaves the globals, the world and the call log exactly as a call of the
    health_check tool on the absolute path of that directory does. *)
Theorem main_startup_is_health_check
        (a : Args) (d : string) (ctx : pyval) (m : Machine World) :
  args_working_dir a = Some d ->
  truthy (PyStr d) = true ->
  let started := snd (main core a m) in
  let checked :=
    snd (health_check core ctx (PyStr (os_path_abspath core d)) m) in
  globals started = globals checked
  /\ world started = world checked
  /\ calls started = calls checked.
Proof.
  intros Ha Hd started checked. subst started checked.
  rewrite (main_run a d m Ha Hd), health_check_run.
  repeat split.
Qed.

(** X2: without --working-dir, or with the empty string for it, [main]
    runs no health check: it returns with the machine untouched (no core
    call, nothing printed, globals as they were). *)
Theorem main_without_directory_is_silent (a : Args) (m : Machine World) :
  args_working_dir a = None \/ args_working_dir a = Some "" ->
  snd (main core a m) = m.
Proof.
  intros [Ha | Ha]; unfold main, bind, ret; rewrite Ha; simpl;
    destruct (args_http a); reflexivity.
Qed.


(** X4: after the start-up health check, [main] has printed two lines, the
    second one saying "succeeded" exactly when the gate is open for the
    session that follows, and "failed" otherwise. *)
Theorem main_reports_the_gate
        (a : Args) (d : string) (m : Machine World) :
  args_working_dir a = Some d ->
  truthy (PyStr d) = true ->
  let started := snd (main core a m) in
  stdout started
  = stdout m
      ++ [("Initializing with working directory: "
             ++ os_path_abspath core d)%string;
          if truthy (IS_HEALTHY (globals started))
          then "Initial health check succeeded."
          else "Initial health check failed."].
Proof.
  intros Ha Hd started. subst started.
  rewrite (main_run a d m Ha Hd). cbn [snd stdout globals IS_HEALTHY].
  rewrite <- app_assoc. cbn [app].
  destruct (truthy (dict_get _ "is_healthy" (PyBool false))); reflexivity.
Qed.

End Startup.

(** ** Arguments of the gated tools *)

Lemma dict_set_set (d : pydict) (k : string) (v v' : pyval) :
  dict_set (dict_set d k v) k v' = dict_set d k v'.
Proof.
  induction d as [|[k0 v0] d IH]; simpl.
  - now rewrite String.eqb_refl.
  - destruct (k0 =? k) eqn:E; simpl; rewrite E; [reflexivity|].
    now rewrite IH.
Qed.

Section GatedArguments.

Variable World : Type.
Variable core : Core World.

(** Past the gate, the tool runs on the keywords with working_dir set. *)
Lemma gated_open (t : GatedTool) args kwargs (m : Machine World) :
  truthy (IS_HEALTHY (globals m)) = true ->
  gated core t args kwargs m
  = undecorated core t args
      (dict_set kwargs "working_dir" (WORKING_DIRECTORY (globals m))) m.
Proof.
  intros H. destruct t; apply tool_guard_healthy; assumption.
Qed.

(** Two positional arguments cannot be bound once working_dir is a
    keyword: the second parameter of every tool is working_dir. *)
Lemma undecorated_positional (t : GatedTool) a1 a2 rest kwargs wd
      (m : Machine World) :
  dict_lookup kwargs "working_dir" = Some wd ->
  undecorated core t (a1 :: a2 :: rest) kwargs m = (Raised TypeError, m).
Proof.
  intros Hwd.
  assert (Hmem : dict_mem kwargs "working_dir" = true)
    by (unfold dict_mem; now rewrite Hwd).
  destruct t; unfold undecorated, list_presets_def, create_project_def,
    build_project_def, test_project_def, py_def, bind_call;
    match goal with
    | |- context [forallb ?f kwargs] => destruct (forallb f kwargs)
    end; try reflexivity;
    cbn [bind_params]; destruct (dict_mem kwargs "ctx"); try reflexivity;
    rewrite Hmem; reflexivity.
Qed.

(** Without a preset keyword, and with at most one positional argument,
    the tools that take a preset cannot be bound. *)
Lemma undecorated_missing_preset (t : GatedTool) args kwargs wd
      (m : Machine World) :
  t <> ListPresets ->
  (length args <= 1)%nat ->
  dict_lookup kwargs "working_dir" = Some wd ->
  dict_lookup kwargs "preset" = None ->
  undecorated core t args kwargs m = (Raised TypeError, m).
Proof.
  intros Ht Hlen Hwd Hp.
  assert (Hmem : dict_mem kwargs "working_dir" = true)
    by (unfold dict_mem; now rewrite Hwd).
  destruct args as [|a1 [|a2 rest]]; [| |simpl in Hlen; lia];
    (destruct t; [congruence| | |]);
    unfold undecorated, create_project_def, build_project_def,
      test_project_def, py_def, bind_call;
    match goal with
    | |- context [forallb ?f kwargs] => destruct (forallb f kwargs)
    end; try reflexivity;
    cbn [bind_params];
    try (destruct (dict_mem kwargs "ctx"); try reflexivity);
    try (destruct (dict_lookup kwargs "ctx"); try reflexivity);
    rewrite Hwd, Hp; reflexivity.
Qed.

Lemma gated_positional (t : GatedTool) args kwargs (m : Machine World) :
  truthy (IS_HEALTHY (globals m)) = true ->
  (2 <= length args)%nat ->
  gated core t args kwargs m = (Raised TypeError, m).
Proof.
  intros H Hlen. rewrite gated_open by assumption.
  destruct args as [|a1 [|a2 rest]]; simpl in Hlen; try lia.
  eapply undecorated_positional, dict_lookup_set_same.
Qed.

(** X5: in a healthy session, a gated tool called with two or more
    positional arguments raises TypeError and nothing else happens: the
    second positional argument is working_dir, which the guard has just
    passed by keyword as well.  No core function is called. *)
Theorem positional_working_dir_is_rejected
        (t : GatedTool) (args : list pyval) (kwargs : pydict)
        (m : Machine World) :
  truthy (IS_HEALTHY (globals m)) = true ->
  (2 <= length args)%nat ->
  gated core t args kwargs m = (Raised TypeError, m).
Proof.
  intros H Hlen. now apply gated_positional.
Qed.

(** X6: the working_dir keyword of the caller has no effect at all: with
    it set to any value, a gated tool returns the same result and leaves
    the same machine as without that change, in every session state. *)
Theorem caller_working_dir_is_ignored
        (t : GatedTool) (args : list pyval) (kwargs : pydict) (w : pyval)
        (m : Machine World) :
  gated core t args (dict_set kwargs "working_dir" w) m
  = gated core t args kwargs m.
Proof.
  destruct (truthy (IS_HEALTHY (globals m))) eqn:H.
  - rewrite !gated_open by assumption. now rewrite dict_set_set.
  - now rewrite !gated_unhealthy by assumption.
Qed.

(** X7: in a healthy session, create_project, build_project and
    test_project called without preset raise TypeError before any core
    call, whatever else is passed; in an unhealthy session the same call
    is answered by the failure envelope, the gate coming first. *)
Theorem missing_preset_is_rejected
        (t : GatedTool) (args : list pyval) (kwargs : pydict)
        (m : Machine World) :
  t <> ListPresets ->
  dict_lookup kwargs "preset" = None ->
  gated core t args kwargs m
  = if truthy (IS_HEALTHY (globals m))
    then (Raised TypeError, m)
    else (Returned gate_failure, m).
Proof.
  intros Ht Hp.
  destruct (truthy (IS_HEALTHY (globals m))) eqn:H;
    [|now apply gated_unhealthy].
  destruct (Nat.le_gt_cases (length args) 1) as [Hlen | Hlen].
  - rewrite gated_open by assumption.
    eapply undecorated_missing_preset; eauto.
    + apply dict_lookup_set_same.
    + rewrite dict_lookup_set_other by discriminate. exact Hp.
  - apply gated_positional; [assumption | lia].
Qed.

Ltac run_open H :=
  unfold list_presets, create_project, build_project, test_project;
  rewrite (tool_guard_healthy World _ _ _ _ H);
  unfold list_presets_def, create_project_def, build_project_def,
    test_project_def, py_def, call_core; cbn;
  match goal with
  | |- context [let (_, _) := ?f (world ?m) in _] =>
      destruct (f (world m)) as [r w']
  end;
  reflexivity.

(** X8: optional parameters that the caller leaves out reach the core with
    their defaults: the core function is applied to cmake_defines, targets,
    test_filter and parallel_jobs as None and to verbose as False, and its
    result is what the tool returns; list_presets needs no keyword at
    all. *)
Theorem omitted_arguments_take_defaults
        (ctx preset : pyval) (m : Machine World) :
  truthy (IS_HEALTHY (globals m)) = true ->
  let wd := WORKING_DIRECTORY (globals m) in
  list_presets core [ctx] [] m
  = (Returned (fst (core_list_presets core wd (world m))),
     {| globals := globals m;
        world := snd (core_list_presets core wd (world m));
        calls := calls m ++ [Call_list_presets wd];
        stdout := stdout m |})
  /\ create_project core [ctx] [("preset", preset)] m
     = (Returned
          (fst (core_create_project core wd preset PyNone (world m))),
        {| globals := globals m;
           world := snd (core_create_project core wd preset PyNone (world m));
           calls := calls m ++ [Call_create_project wd preset PyNone];
           stdout := stdout m |})
  /\ build_project core [ctx] [("preset", preset)] m
     = (Returned
          (fst (core_build_project core wd preset PyNone (PyBool false)
                                   PyNone (world m))),
        {| globals := globals m;
           world :=
             snd (core_build_project core wd preset PyNone (PyBool false)
                                     PyNone (world m));
           calls :=
             calls m
               ++ [Call_build_project wd preset PyNone (PyBool false)
                                      PyNone];
           stdout := stdout m |})
  /\ test_project core [ctx] [("preset", preset)] m
     = (Returned
          (fst (core_test_project core wd preset PyNone (PyBool false)
                                  PyNone (world m))),
        {| globals := globals m;
           world :=
             snd (core_test_project core wd preset PyNone (PyBool false)
                                    PyNone (world m));
           calls :=
             calls m
               ++ [Call_test_project wd preset PyNone (PyBool false)
                                     PyNone];
           stdout := stdout m |}).
Proof.
  intros H wd. subst wd.
  split; [run_open H|]. split; [run_open H|]. split; run_open H.
Qed.

End GatedArguments.

(** ** Health checks in sequence *)

Section Sequences.

Variable World : Type.
Variable core : Core World.

(** X9: a health check is idempotent on the session state: when a second
    check gets the result the first one got (nothing changed outside), the
    globals after the second check are the globals after the first,
    whatever they were at the start. *)
Theorem health_check_idempotent
        (ctx ctx' working_dir : pyval) (m : Machine World) :
  let m1 := snd (health_check core ctx working_dir m) in
  let m2 := snd (health_check core ctx' working_dir m1) in
  fst (core_health_check core working_dir (world m1))
  = fst (core_health_check core working_dir (world m)) ->
  globals m2 = globals m1.
Proof.
  intros m1 m2 Hsame. subst m2.
  rewrite health_check_run. cbn zeta. rewrite Hsame.
  subst m1. rewrite health_check_run. cbn.
  destruct (truthy (dict_get _ "working_directory" PyNone));
    reflexivity.
Qed.

(** X10: after a health check whose result is healthy and carries a
    directory, every gated tool runs on that directory, whatever the
    session held before: a call either raises TypeError on its arguments
    or applies the core function of the tool to the directory of the
    result, returning what that application returns. *)
Theorem tools_run_on_checked_directory
        (ctx working_dir : pyval) (m : Machine World)
        (t : GatedTool) (args : list pyval) (kwargs : pydict) :
  let result := fst (core_health_check core working_dir (world m)) in
  let m' := snd (health_check core ctx working_dir m) in
  truthy (dict_get result "is_healthy" (PyBool false)) = true ->
  truthy (dict_get result "working_directory" PyNone) = true ->
  gated core t args kwargs m' = (Raised TypeError, m') \/
  runs_core_on core t (dict_get result "working_directory" PyNone) m'
               (gated core t args kwargs m').
Proof.
  intros result m' Hflag Hdir.
  assert (G : globals m'
              = {| WORKING_DIRECTORY :=
                     dict_get result "working_directory" PyNone;
                   IS_HEALTHY :=
                     dict_get result "is_healthy" (PyBool false) |}).
  { subst result m'. rewrite health_check_run. cbn.
    now rewrite Hdir. }
  replace (dict_get result "working_directory" PyNone)
    with (WORKING_DIRECTORY (globals m')) by now rewrite G.
  apply gated_runs. now rewrite G.
Qed.

(** X11: the directory of a check is kept whether or not that check was
    healthy.  When a first check reports a directory, healthy or not, and
    a later check reports healthy without a directory, the gated tools run
    on the directory of the first check: a call that binds applies the core
    function of the tool to that directory. *)
Theorem directory_of_earlier_check_is_used
        (ctx1 dir1 ctx2 dir2 : pyval) (m : Machine World)
        (t : GatedTool) (args : list pyval) (kwargs : pydict) :
  let first := fst (core_health_check core dir1 (world m)) in
  let m1 := snd (health_check core ctx1 dir1 m) in
  let second := fst (core_health_check core dir2 (world m1)) in
  let m2 := snd (health_check core ctx2 dir2 m1) in
  truthy (dict_get first "working_directory" PyNone) = true ->
  truthy (dict_get second "working_directory" PyNone) = false ->
  truthy (dict_get second "is_healthy" (PyBool false)) = true ->
  WORKING_DIRECTORY (globals m2) = dict_get first "working_directory" PyNone
  /\ (gated core t args kwargs m2 = (Raised TypeError, m2) \/
      runs_core_on core t (dict_get first "working_directory" PyNone) m2
                   (gated core t args kwargs m2)).
Proof.
  intros first m1 second m2 Hfirst Hsecond Hflag.
  assert (G1 : WORKING_DIRECTORY (globals m1)
               = dict_get first "working_directory" PyNone).
  { subst first m1. rewrite health_check_run. cbn. now rewrite Hfirst. }
  assert (G2 : globals m2
               = {| WORKING_DIRECTORY :=
                      dict_get first "working_directory" PyNone;
                    IS_HEALTHY :=
                      dict_get second "is_healthy" (PyBool false) |}).
  { subst second m2. rewrite health_check_run. cbn zeta.
    cbn [globals]. rewrite Hsecond, G1. reflexivity. }
  split; [now rewrite G2|].
  replace (dict_get first "working_directory" PyNone)
    with (WORKING_DIRECTORY (globals m2)) by now rewrite G2.
  apply gated_runs. now rewrite G2.
Qed.

(** One request adds at most one core call and prints nothing. *)
Lemma registered_log (r : Request) (m : Machine World) :
  let m' := snd (registered core (req_tool r) (req_args r) (req_kwargs r) m)
  in
  stdout m' = stdout m
  /\ exists new,
      calls m' = calls m ++ new
      /\ (length new <= 1)%nat
      /\ (is_health_request r = false ->
          forallb (fun c => negb (is_health_call c)) new = true).
Proof.
  unfold is_health_request.
  destruct (req_tool r) as [|t]; cbn [registered].
  - destruct (health_check_tool_cases World core (req_args r)
                                      (req_kwargs r) m)
      as [E | (ctx & wd & E)]; rewrite E.
    + split; [reflexivity|]. exists []. rewrite app_nil_r.
      repeat split; auto.
    + rewrite health_check_run. cbn. split; [reflexivity|].
      exists [Call_health_check wd].
      split; [reflexivity|]. split; [simpl; lia|]. discriminate.
  - destruct (truthy (IS_HEALTHY (globals m))) eqn:H.
    + destruct (gated_healthy World core t (req_args r) (req_kwargs r) m H)
        as [E | (c & res & w' & Hc & _ & E)]; rewrite E; cbn.
      * split; [reflexivity|]. exists []. rewrite app_nil_r.
        repeat split; auto.
      * split; [reflexivity|]. exists [c]. repeat split; simpl; auto.
        intros _. now rewrite Hc.
    + rewrite gated_unhealthy by assumption. cbn.
      split; [reflexivity|]. exists []. rewrite app_nil_r.
      repeat split; auto.
Qed.

(** X12: over any session the tools print nothing, the call log only
    grows, and it grows by at most one core call per request served. *)
Theorem session_calls_core_at_most_once_per_request
        (rs : list Request) (m : Machine World) :
  let m' := snd (serve core rs m) in
  stdout m' = stdout m
  /\ exists new,
      calls m' = calls m ++ new /\ (length new <= length rs)%nat.
Proof.
  revert m. induction rs as [|r rs IH]; intros m; cbn [serve].
  - split; [reflexivity|]. exists []. now rewrite app_nil_r.
  - destruct (registered_log r m) as (Hout & new1 & Hc1 & Hl1 & _).
    destruct (registered core (req_tool r) (req_args r) (req_kwargs r) m)
      as [o m1].
    destruct (IH m1) as (Hout' & new2 & Hc2 & Hl2).
    destruct (serve core rs m1) as [os m2]. cbn [snd] in *.
    split; [congruence|].
    exists (new1 ++ new2). rewrite Hc2, Hc1, app_assoc.
    split; [reflexivity|]. rewrite length_app. simpl. lia.
Qed.

(** X13: core.health_check is reached through the health_check tool only:
    a session of gated tools adds no health-check call to the log, in any
    session state. *)
Theorem gated_session_never_runs_health_check
        (rs : list Request) (m : Machine World) :
  let gated_only := filter (fun r => negb (is_health_request r)) rs in
  exists new,
    calls (snd (serve core gated_only m)) = calls m ++ new
    /\ forallb (fun c => negb (is_health_call c)) new = true.
Proof.
  revert m. induction rs as [|r rs IH]; intros m; cbn [filter].
  - exists []. now rewrite app_nil_r.
  - destruct (is_health_request r) eqn:Hr; cbn [negb]; [apply IH|].
    cbn [serve].
    destruct (registered_log r m) as (_ & new1 & Hc1 & _ & Hn1).
    destruct (registered core (req_tool r) (req_args r) (req_kwargs r) m)
      as [o m1].
    destruct (IH m1) as (new2 & Hc2 & Hn2).
    destruct (serve core _ m1) as [os m2]. cbn [snd] in *.
    exists (new1 ++ new2). rewrite Hc2, Hc1, app_assoc.
    split; [reflexivity|].
    rewrite forallb_app, Hn2, (Hn1 Hr). reflexivity.
Qed.

End Sequences.

(** ** The whole run of the server *)

Section Run.

Variable World : Type.
Variable core : Core World.

Lemma serve_calls_grow (rs : list Request) :
  forall m : Machine World,
    exists new, calls (snd (serve core rs m)) = calls m ++ new.
Proof.
  induction rs as [|r rs IH]; intros m; cbn [serve].
  - exists []. now rewrite app_nil_r.
  - destruct (registered_log World core r m) as (_ & new1 & Hc1 & _).
    destruct (registered core (req_tool r) (req_args r) (req_kwargs r) m)
      as [o m1].
    destruct (IH m1) as (new2 & Hc2).
    destruct (serve core rs m1) as [os m2]. cbn [snd] in *.
    exists (new1 ++ new2). now rewrite Hc2, Hc1, app_assoc.
Qed.

(** From an unhealthy session that has not called the core yet, the first
    core call, if there is one, is a health check. *)
Lemma serve_first_call (rs : list Request) :
  forall m : Machine World,
    truthy (IS_HEALTHY (globals m)) = false ->
    calls m = [] ->
    match calls (snd (serve core rs m)) with
    | [] => True
    | c :: _ => is_health_call c = true
    end.
Proof.
  induction rs as [|r rs IH]; intros m H Hc; cbn [serve].
  - cbn. now rewrite Hc.
  - destruct (req_tool r) as [|t]; cbn [registered].
    + destruct (health_check_tool_cases World core (req_args r)
                                        (req_kwargs r) m)
        as [E | (ctx & wd & E)]; rewrite E.
      * specialize (IH m H Hc).
        destruct (serve core rs m) as [os m2]. exact IH.
      * rewrite health_check_run. lazy beta iota zeta.
        match goal with
        | |- context [serve core rs ?m1] =>
            destruct (serve_calls_grow rs m1) as (new & Hn);
            destruct (serve core rs m1) as [os m2]
        end.
        cbn [snd calls] in *. rewrite Hn, Hc. reflexivity.
    + rewrite gated_unhealthy by assumption.
      specialize (IH m H Hc).
      destruct (serve core rs m) as [os m2]. exact IH.
Qed.

(** X14: in every run of the server, from process start through [main]
    and any session of requests, the first call into mcp_cmake.core, if
    there is one, is a health check: no preset listing, configure, build or
    test is run before a health check has been. *)
Theorem first_core_call_is_a_health_check
        (a : Args) (w : World) (rs : list Request) :
  let started := snd (main core a (initial_machine w)) in
  match calls (snd (serve core rs started)) with
  | [] => True
  | c :: _ => is_health_call c = true
  end.
Proof.
  intros started.
  destruct (args_working_dir a) as [d|] eqn:Ha.
  - destruct (truthy (PyStr d)) eqn:Hd.
    + destruct (serve_calls_grow rs started) as (new & Hn).
      rewrite Hn. subst started.
      rewrite (main_run World core a d _ Ha Hd). reflexivity.
    + assert (E : started = initial_machine w).
      { subst started. unfold main, bind, ret. rewrite Ha, Hd.
        destruct (args_http a); reflexivity. }
      rewrite E. now apply serve_first_call.
  - assert (E : started = initial_machine w).
    { subst started. unfold main, bind, ret. rewrite Ha.
      destruct (args_http a); reflexivity. }
    rewrite E. now apply serve_first_call.
Qed.

End Run.

(** ** Instances of the further properties *)

Lemma main_startup_is_health_check_witness :
  args_working_dir (mkArgs (Some "/tmp/proj") false false "127.0.0.1" 8000)
  = Some "/tmp/proj"
  /\ truthy (PyStr "/tmp/proj") = true
  /\ globals
       (snd (main Stub.core
               (mkArgs (Some "/tmp/proj") false false "127.0.0.1" 8000)
               Stub.fresh_machine))
     = globals
         (snd (health_check Stub.core Stub.ctx
                 (PyStr (os_path_abspath Stub.core "/tmp/proj"))
                 Stub.fresh_machine)).
Proof.
  split; [reflexivity|]. split; [reflexivity|].
  exact (proj1 (main_startup_is_health_check
                  Stub.World Stub.core
                  (mkArgs (Some "/tmp/proj") false false "127.0.0.1" 8000)
                  "/tmp/proj" Stub.ctx Stub.fresh_machine
                  eq_refl eq_refl)).
Defined.

Lemma main_without_directory_is_silent_witness :
  (args_working_dir (mkArgs (Some "") true false "127.0.0.1" 8000) = None
   \/ args_working_dir (mkArgs (Some "") true false "127.0.0.1" 8000)
      = Some "")
  /\ snd (main Stub.core (mkArgs (Some "") true false "127.0.0.1" 8000)
               Stub.fresh_machine)
     = Stub.fresh_machine.
Proof.
  split; [right; reflexivity|].
  exact (main_without_directory_is_silent
           Stub.World Stub.core
           (mkArgs (Some "") true false "127.0.0.1" 8000)
           Stub.fresh_machine (or_intror eq_refl)).
Defined.

Lemma main_reports_the_gate_witness :
  args_working_dir (mkArgs (Some "/missing") false true "127.0.0.1" 8000)
  = Some "/missing"
  /\ truthy (PyStr "/missing") = true
  /\ stdout
       (snd (main Stub.core
               (mkArgs (Some "/missing") false true "127.0.0.1" 8000)
               (initial_machine [Stub.unhealthy_result])))
     = ["Initializing with working directory: /missing";
        "Initial health check failed."].
Proof.
  split; [reflexivity|]. split; [reflexivity|].
  exact (main_reports_the_gate
           Stub.World Stub.core
           (mkArgs (Some "/missing") false true "127.0.0.1" 8000)
           "/missing" (initial_machine [Stub.unhealthy_result])
           eq_refl eq_refl).
Defined.

Lemma positional_working_dir_is_rejected_witness :
  truthy (IS_HEALTHY (globals (Stub.healthy_machine []))) = true
  /\ (2 <= length [Stub.ctx; PyStr "/elsewhere"])%nat
  /\ list_presets Stub.core [Stub.ctx; PyStr "/elsewhere"] []
                  (Stub.healthy_machine [])
     = (Raised TypeError, Stub.healthy_machine []).
Proof.
  split; [reflexivity|]. split; [simpl; lia|].
  exact (positional_working_dir_is_rejected
           Stub.World Stub.core ListPresets
           [Stub.ctx; PyStr "/elsewhere"] [] (Stub.healthy_machine [])
           eq_refl (le_n 2)).
Defined.

Lemma missing_preset_is_rejected_witness :
  BuildProject <> ListPresets
  /\ dict_lookup [("targets", PyList [PyStr "all"])] "preset" = None
  /\ build_project Stub.core [Stub.ctx] [("targets", PyList [PyStr "all"])]
                   (Stub.healthy_machine [])
     = (Raised TypeError, Stub.healthy_machine []).
Proof.
  assert (Ht : BuildProject <> ListPresets) by discriminate.
  split; [exact Ht|]. split; [reflexivity|].
  exact (missing_preset_is_rejected
           Stub.World Stub.core BuildProject [Stub.ctx]
           [("targets", PyList [PyStr "all"])] (Stub.healthy_machine [])
           Ht eq_refl).
Defined.

Lemma omitted_arguments_take_defaults_witness :
  truthy (IS_HEALTHY (globals (Stub.healthy_machine []))) = true
  /\ build_project Stub.core [Stub.ctx] [("preset", PyStr "debug")]
                   (Stub.healthy_machine [])
     = (Returned
          (fst (core_build_project Stub.core (PyStr "/tmp/proj")
                  (PyStr "debug") PyNone (PyBool false) PyNone [])),
        {| globals := globals (Stub.healthy_machine []);
           world :=
             snd (core_build_project Stub.core (PyStr "/tmp/proj")
                    (PyStr "debug") PyNone (PyBool false) PyNone []);
           calls :=
             [Call_health_check (PyStr "/tmp/proj");
              Call_build_project (PyStr "/tmp/proj") (PyStr "debug") PyNone
                                 (PyBool false) PyNone];
           stdout := [] |}).
Proof.
  split; [reflexivity|].
  exact (proj1 (proj2 (proj2 (omitted_arguments_take_defaults
                                Stub.World Stub.core Stub.ctx
                                (PyStr "debug") (Stub.healthy_machine [])
                                eq_refl)))).
Defined.

Lemma health_check_idempotent_witness :
  fst (core_health_check Stub.core (PyStr "/missing")
         (world (snd (health_check Stub.core Stub.ctx (PyStr "/missing")
                        (Stub.healthy_machine
                           [Stub.unhealthy_result;
                            Stub.unhealthy_result])))))
  = fst (core_health_check Stub.core (PyStr "/missing")
           (world (Stub.healthy_machine
                     [Stub.unhealthy_result; Stub.unhealthy_result])))
  /\ globals
       (snd (health_check Stub.core Stub.ctx (PyStr "/missing")
               (snd (health_check Stub.core Stub.ctx (PyStr "/missing")
                       (Stub.healthy_machine
                          [Stub.unhealthy_result;
                           Stub.unhealthy_result])))))
     = globals
         (snd (health_check Stub.core Stub.ctx (PyStr "/missing")
                 (Stub.healthy_machine
                    [Stub.unhealthy_result; Stub.unhealthy_result]))).
Proof.
  split; [reflexivity|].
  exact (health_check_idempotent
           Stub.World Stub.core Stub.ctx Stub.ctx (PyStr "/missing")
           (Stub.healthy_machine
              [Stub.unhealthy_result; Stub.unhealthy_result])
           eq_refl).
Defined.

Lemma tools_run_on_checked_directory_witness :
  truthy (dict_get (fst (core_health_check Stub.core (PyStr "/tmp/proj")
                                           (world Stub.fresh_machine)))
                   "is_healthy" (PyBool false)) = true
  /\ truthy (dict_get (fst (core_health_check Stub.core (PyStr "/tmp/proj")
                                              (world Stub.fresh_machine)))
                      "working_directory" PyNone) = true
  /\ (list_presets Stub.core [Stub.ctx] []
        (snd (health_check Stub.core Stub.ctx (PyStr "/tmp/proj")
                Stub.fresh_machine))
      = (Raised TypeError,
         snd (health_check Stub.core Stub.ctx (PyStr "/tmp/proj")
                Stub.fresh_machine))
      \/ runs_core_on Stub.core ListPresets (PyStr "/tmp/proj")
           (snd (health_check Stub.core Stub.ctx (PyStr "/tmp/proj")
                   Stub.fresh_machine))
           (list_presets Stub.core [Stub.ctx] []
              (snd (health_check Stub.core Stub.ctx (PyStr "/tmp/proj")
                      Stub.fresh_machine)))).
Proof.
  split; [reflexivity|]. split; [reflexivity|].
  exact (tools_run_on_checked_directory
           Stub.World Stub.core Stub.ctx (PyStr "/tmp/proj")
           Stub.fresh_machine ListPresets [Stub.ctx] []
           eq_refl eq_refl).
Defined.

Lemma directory_of_earlier_check_is_used_witness :
  truthy
    (dict_get
       (fst (core_health_check Stub.core (PyStr "/tmp/broken")
               (world
                  (initial_machine
                     [[("is_healthy", PyBool false);
                       ("working_directory", PyStr "/tmp/broken")];
                      [("is_healthy", PyBool true);
                       ("working_directory", PyNone)]]))))
       "working_directory" PyNone) = true
  /\ WORKING_DIRECTORY
       (globals
          (snd (health_check Stub.core Stub.ctx PyNone
                  (snd (health_check Stub.core Stub.ctx (PyStr "/tmp/broken")
                          (initial_machine
                             [[("is_healthy", PyBool false);
                               ("working_directory", PyStr "/tmp/broken")];
                              [("is_healthy", PyBool true);
                               ("working_directory", PyNone)]]))))))
     = PyStr "/tmp/broken".
Proof.
  split; [reflexivity|].
  exact (proj1 (directory_of_earlier_check_is_used
                  Stub.World Stub.core Stub.ctx (PyStr "/tmp/broken")
                  Stub.ctx PyNone
                  (initial_machine
                     [[("is_healthy", PyBool false);
                       ("working_directory", PyStr "/tmp/broken")];
                      [("is_healthy", PyBool true);
                       ("working_directory", PyNone)]])
                  ListPresets [Stub.ctx] []
                  eq_refl eq_refl eq_refl)).
Defined.
